(** * faa-extract: the FAA dataset registry, the fetch-and-parse function,
      the asset factory and the schedule, embedded from
      [src/faa_assets.py] and [src/faa_definitions.py]. *)

From stdpp Require Import base option list strings pretty gmap fin_maps.
From Stdlib Require Import ZArith Lia.

Local Open Scope Z_scope.

(** ** Python values the program handles *)

(** The exceptions that can leave [extract_aircraft_data]: those raised by
    the statements of the function itself ([IndexError] by [namelist()[0]],
    [UnboundLocalError] by [return df]) and those raised by the libraries it
    calls. *)
Inductive Exception : Type :=
  | ConnectionError      (* requests: no response was obtained, timeout included *)
  | UnboundLocalError    (* a local variable read before any assignment *)
  | IndexError           (* list index out of range *)
  | KeyError             (* zipfile.getinfo: no entry of that name *)
  | BadZipFile           (* zipfile: no central directory, bad entry header or CRC *)
  | NotImplementedError  (* zipfile: compression method not supported *)
  | RuntimeError         (* zipfile: encrypted entry opened without a password *)
  | UnicodeDecodeError   (* pandas: bytes that are not UTF-8 *)
  | EmptyDataError       (* pandas: no columns to parse from file *)
  | ParserError          (* pandas: error tokenizing data *)
  | ValueError.          (* pandas: missing column provided to parse_dates *)

Inductive Result (A : Type) : Type :=
  | Ok (a : A)
  | Raise (e : Exception).
Arguments Ok {A} a.
Arguments Raise {A} e.

Definition result_bind {A B} (k : A → Result B) (r : Result A) : Result B :=
  match r with
  | Ok a => k a
  | Raise e => Raise e
  end.

#[global] Instance Result_ret : MRet Result := @Ok.
#[global] Instance Result_bind : MBind Result := @result_bind.

Definition is_ok {A} (r : Result A) : bool :=
  match r with Ok _ => true | Raise _ => false end.

(** ** The dataset registry ([data_sets], faa_assets.py 22-122) *)

Record Descriptor : Type := {
  group : string;
  name : string;
  url : string;
  date : option string;     (* None is Python's None *)
  site : string
}.

Definition data_sets : list Descriptor := [
  {| group := "aircraft"; name := "aircraft";
     url := "https://av-info.faa.gov/data/ACRef/tab/aircraft.zip";
     date := Some "Last_Change_Date";
     site := "https://av-info.faa.gov/dd_sublevel.asp?Folder=\ACREF" |};
  {| group := "aircraft"; name := "ata_codes";
     url := "https://av-info.faa.gov/data/ACREF/tab/ata.zip";
     date := Some "Last_Change_Date";
     site := "https://av-info.faa.gov/dd_sublevel.asp?Folder=\ACREF" |};
  {| group := "aircraft"; name := "compt";
     url := "https://av-info.faa.gov/data/ACREF/tab/compt.zip";
     date := Some "Last_Change_Date";
     site := "https://av-info.faa.gov/dd_sublevel.asp?Folder=\ACREF" |};
  {| group := "aircraft"; name := "engine";
     url := "https://av-info.faa.gov/data/ACREF/tab/engine.zip";
     date := Some "Last_Change_Date";
     site := "https://av-info.faa.gov/dd_sublevel.asp?Folder=\ACREF" |};
  {| group := "aircraft"; name := "prop";
     url := "https://av-info.faa.gov/data/ACREF/tab/prop.zip";
     date := Some "Last_Change_Date";
     site := "https://av-info.faa.gov/dd_sublevel.asp?Folder=\ACREF" |};
  {| group := "reference"; name := "aircraft_ref";
     url := "https://av-info.faa.gov/data/REFERENCE/tab/aircraft.zip";
     date := None;
     site := "https://av-info.faa.gov/dd_sublevel.asp?Folder=\REFERENCE" |};
  {| group := "reference"; name := "acseries";
     url := "https://av-info.faa.gov/data/REFERENCE/tab/acseries.zip";
     date := Some "LCHG_DATE";
     site := "https://av-info.faa.gov/dd_sublevel.asp?Folder=\REFERENCE" |};
  {| group := "reference"; name := "airmanuf";
     url := "https://av-info.faa.gov/data/REFERENCE/tab/airmanuf.zip";
     date := Some "LCHG_DATE";
     site := "https://av-info.faa.gov/dd_sublevel.asp?Folder=\REFERENCE" |};
  {| group := "reference"; name := "airport";
     url := "https://av-info.faa.gov/data/REFERENCE/tab/airport.zip";
     date := Some "LCHG_DATE";
     site := "https://av-info.faa.gov/dd_sublevel.asp?Folder=\REFERENCE" |};
  {| group := "reference"; name := "country";
     url := "https://av-info.faa.gov/data/REFERENCE/tab/country.zip";
     date := Some "LCHG_DATE";
     site := "https://av-info.faa.gov/dd_sublevel.asp?Folder=\REFERENCE" |};
  {| group := "reference"; name := "distoffc";
     url := "https://av-info.faa.gov/data/REFERENCE/tab/distoffc.zip";
     date := Some "LCHG_DATE";
     site := "https://av-info.faa.gov/dd_sublevel.asp?Folder=\REFERENCE" |};
  {| group := "reference"; name := "makemodl";
     url := "https://av-info.faa.gov/data/REFERENCE/tab/makemodl.zip";
     date := Some "LCHG_DATE";
     site := "https://av-info.faa.gov/dd_sublevel.asp?Folder=\REFERENCE" |};
  {| group := "reference"; name := "simulatr";
     url := "https://av-info.faa.gov/data/REFERENCE/tab/simulatr.zip";
     date := Some "LCHG_DATE";
     site := "https://av-info.faa.gov/dd_sublevel.asp?Folder=\REFERENCE" |};
  {| group := "reference"; name := "state";
     url := "https://av-info.faa.gov/data/REFERENCE/tab/state.zip";
     date := Some "LCHG_DATE";
     site := "https://av-info.faa.gov/dd_sublevel.asp?Folder=\REFERENCE" |}
].

(** The identifier the spec calls group+name. *)
Definition group_name_pair (d : Descriptor) : string * string := (group d, name d).

(** ** requests: one GET, its outcome, and the log of what was sent *)

(** [zipfile.ZipFile] keeps two views of the archive's central directory:
    [filelist], the entries in directory order, and [NameToInfo], a dict from
    entry name to entry. An entry carries its name and what reading it
    yields: the decompressed bytes, or the exception of the read. *)
Record ZipInfo : Type := {
  filename : string;
  file_data : Result string
}.

Record ZipFile : Type := {
  filelist : list ZipInfo;
  NameToInfo : gmap string ZipInfo
}.

(** A response body, seen through what [zipfile.ZipFile(BytesIO(body))] finds
    in it: no central directory at all, or the entries it lists, in order. *)
Inductive Body : Type :=
  | NotAZip
  | ZipBytes (central_directory : list ZipInfo).

Record Response : Type := {
  status_code : Z;
  content : Body
}.

Record Request : Type := {
  req_url : string;
  req_timeout : Z
}.

(** What the network answers to a GET, given every GET sent before it. *)
Definition Server : Type := list Request → Request → Result Response.

(** Computations that may send requests and may raise: the state is the log
    of the GETs sent so far. *)
Definition IO (A : Type) : Type := list Request → Result A * list Request.

Definition io_ret {A} (a : A) : IO A := λ log, (Ok a, log).
Definition raise {A} (e : Exception) : IO A := λ log, (Raise e, log).
Definition io_bind {A B} (k : A → IO B) (m : IO A) : IO B :=
  λ log, match m log with
         | (Ok a, log') => k a log'
         | (Raise e, log') => (Raise e, log')
         end.
Definition lift {A} (r : Result A) : IO A := λ log, (r, log).

#[global] Instance IO_ret : MRet IO := @io_ret.
#[global] Instance IO_bind : MBind IO := @io_bind.

(** ** zipfile *)

Definition empty_zip : ZipFile := {| filelist := []; NameToInfo := ∅ |}.

(** [_RealGetContents]: for each entry [x] of the central directory,
    [self.filelist.append(x)] and [self.NameToInfo[x.filename] = x]. *)
Definition RealGetContents (central_directory : list ZipInfo) : ZipFile :=
  foldl (λ z x, {| filelist := filelist z ++ [x];
                   NameToInfo := <[filename x := x]> (NameToInfo z) |})
        empty_zip central_directory.

Definition zipfile_ZipFile (b : Body) : Result ZipFile :=
  match b with
  | NotAZip => Raise BadZipFile
  | ZipBytes cd => Ok (RealGetContents cd)
  end.

Definition namelist (z : ZipFile) : list string := filename <$> filelist z.

Definition getinfo (z : ZipFile) (nm : string) : Result ZipInfo :=
  match NameToInfo z !! nm with
  | Some info => Ok info
  | None => Raise KeyError
  end.

(** [zip_ref.open(name)]: the entry is found through [getinfo]; the bytes it
    hands to its reader are the entry's data. *)
Definition zip_open (z : ZipFile) (nm : string) : Result string :=
  info ← getinfo z nm; file_data info.

(** [l[0]] on a Python list. *)
Definition index0 {A} (l : list A) : Result A :=
  match l with
  | x :: _ => Ok x
  | [] => Raise IndexError
  end.

(** Truth value of [date], a [str] or [None]: only [None] and the empty
    string are false. *)
Definition truthy (date : option string) : bool :=
  match date with
  | None => false
  | Some s => negb (bool_decide (s = ""))
  end.

(** ** pandas: the tabular result *)

(** A value of a column. Text columns hold [Obj]; a missing value is [NaN]
    in a text or numeric column and [NaT] in a datetime column. *)
Inductive Cell : Type :=
  | Obj (s : string)
  | NaN
  | Int64 (z : Z)
  | Float64 (bits : Z)
  | Bool (b : bool)
  | Timestamp (ns : Z)
  | NaT.

(** The row labels: positions [0 .. stop-1], or the arrays of a labelled
    index, one array per level. *)
Inductive Index : Type :=
  | RangeIndex (stop : nat)
  | LabelIndex (arrays : list (list Cell)).

(** A frame: the row labels, and the columns in order, each with its name
    and its values. *)
Record DataFrame : Type := {
  index : Index;
  frame : list (string * list Cell)
}.

(** [df.columns] *)
Definition columns (df : DataFrame) : list string := (frame df).*1.

Fixpoint lookup_column (c : string) (fr : list (string * list Cell))
  : option (list Cell) :=
  match fr with
  | [] => None
  | (nm, vs) :: fr => if decide (nm = c) then Some vs else lookup_column c fr
  end.

(** [df[c]]: the values of the first column of that name. *)
Definition column (df : DataFrame) (c : string) : option (list Cell) :=
  lookup_column c (frame df).

(** [len(index)] *)
Definition index_len (ix : Index) : nat :=
  match ix with
  | RangeIndex stop => stop
  | LabelIndex arrays => from_option length 0%nat (arrays !! 0%nat)
  end.

(** [len(df)], the number of rows. *)
Definition n_rows (df : DataFrame) : nat := index_len (index df).

(** [index[:n]] *)
Definition index_take (n : nat) (ix : Index) : Index :=
  match ix with
  | RangeIndex stop => RangeIndex (n `min` stop)
  | LabelIndex arrays => LabelIndex (take n <$> arrays)
  end.

(** [df.head()]: [df.iloc[:5]], the default [n] being 5. *)
Definition head (df : DataFrame) : DataFrame :=
  {| index := index_take 5 (index df);
     frame := prod_map id (take 5) <$> frame df |}.

(** ** dagster: what a unit is and what it publishes *)

Inductive MetadataValue : Type :=
  | MarkdownMetadataValue (md_str : string).

(** [MetadataValue.md] *)
Definition MetadataValue_md (s : string) : MetadataValue := MarkdownMetadataValue s.

Record Output : Type := {
  value : DataFrame;
  metadata : gmap string MetadataValue
}.

Record AssetsDefinition : Type := {
  asset_name : string;
  group_name : string;
  compute_kind : string;
  io_manager_key : string;
  key_prefix : list string;
  compute_fn : IO Output
}.

(** The [@asset] decorator: a [key_prefix] given as one string is the
    one-element prefix. *)
Definition asset (nm grp kind io_key prefix : string) (fn : IO Output)
  : AssetsDefinition :=
  {| asset_name := nm; group_name := grp; compute_kind := kind;
     io_manager_key := io_key; key_prefix := [prefix]; compute_fn := fn |}.

(** The asset key: the prefix followed by the name. *)
Definition asset_key (a : AssetsDefinition) : list string :=
  key_prefix a ++ [asset_name a].

(** Where the database I/O manager stores an asset: the table is the last
    component of the key, the schema the one before it ([public] when the
    key has a single component). *)
Definition get_table_slice (key : list string) : option (string * string) :=
  match reverse key with
  | [] => None
  | [table] => Some ("public", table)
  | table :: schema :: _ => Some (schema, table)
  end.

Record JobDefinition : Type := {
  job_name : string;
  selection : list AssetsDefinition
}.

Definition define_asset_job (nm : string) (sel : list AssetsDefinition)
  : JobDefinition :=
  {| job_name := nm; selection := sel |}.

Record ScheduleDefinition : Type := {
  job : JobDefinition;
  cron_schedule : string
}.

Inductive ResourceDefinition : Type :=
  | duckdb_pandas_io_manager (database_env : string).

Record Definitions : Type := {
  assets : list AssetsDefinition;
  schedules : list ScheduleDefinition;
  resources : gmap string ResourceDefinition
}.

(** ** The program *)

(** The delimiter ["\t"]. *)
Definition TAB : string := String (Ascii.ascii_of_nat 9) "".

Section Program.
(** The network the run talks to. *)
Context (server : Server).
(** [pd.read_csv(csv_file, delimiter=..., parse_dates=...)] on the opened
    entry; [parse_dates] is [None] when the argument is left out. *)
Context (read_csv : Result string → string → option (list string)
                    → Result DataFrame).
(** [df.to_markdown(index=...)] *)
Context (to_markdown : DataFrame → bool → string).

(** [requests.get(url, timeout=...)]: the request is sent, and logged,
    whatever its outcome. *)
Definition requests_get (u : string) (timeout : Z) : IO Response :=
  λ log, let rq := {| req_url := u; req_timeout := timeout |} in
         (server log rq, log ++ [rq]).

(** faa_assets.py 126-144. The local [df] is bound only inside the
    [if]; [return df] reads it. In the branch where [date] is true it is
    a string, and [[date]] is the one-element list [option_list date]. *)
Definition extract_aircraft_data (date : option string) (url : string)
  : IO DataFrame :=
  response ← requests_get url 15;
  df ← (if bool_decide (status_code response = 200) then
          zip_ref ← lift (zipfile_ZipFile (content response));
          csv_path ← lift (index0 (namelist zip_ref));
          let csv_file := zip_open zip_ref csv_path in
          df ← lift (if truthy date
                     then read_csv csv_file TAB (Some (option_list date))
                     else read_csv csv_file TAB None);
          mret (Some df)
        else mret None);
  match df with
  | Some df => mret df
  | None => raise UnboundLocalError
  end.

(** faa_assets.py 155-166 *)
Definition _asset (data_set : Descriptor) : IO Output :=
  df ← extract_aircraft_data (date data_set) (url data_set);
  mret {| value := df;
          metadata :=
            <["website" := MetadataValue_md
                ("This data was obtained from this [website]("
                 +:+ site data_set +:+ ").")]>
            (<["preview" := MetadataValue_md (to_markdown (head df) false)]> ∅) |}.

(** faa_assets.py 147-168 *)
Definition build_asset (data_set : Descriptor) : AssetsDefinition :=
  asset (name data_set) (group data_set) "duckdb" "faa_io_manager"
        (group data_set) (_asset data_set).

(** faa_definitions.py 12-31 *)
Definition faa_assets : list AssetsDefinition :=
  build_asset <$> data_sets.

Definition faa_job : JobDefinition := define_asset_job "faa_job" faa_assets.

Definition faa_schedule : ScheduleDefinition :=
  {| job := faa_job; cron_schedule := "0 17 * * MON" |}.

Definition defs : Definitions :=
  {| assets := faa_assets;
     schedules := [faa_schedule];
     resources := {[ "faa_io_manager" := duckdb_pandas_io_manager "DUCKDB_FAA_DB" ]} |}.
End Program.

(** What the call hands to [parse_dates]: [[date]] when [date] is true,
    nothing otherwise. *)
Definition parse_dates_of (date : option string) : option (list string) :=
  if truthy date then Some (option_list date) else None.

(** ** pandas: [read_csv] as this program calls it *)

Module pd.

(** The strings [read_csv] takes for a missing value by default. *)
Definition STR_NA_VALUES : list string :=
  [""; "#N/A"; "#N/A N/A"; "#NA"; "-1.#IND"; "-1.#QNAN"; "-NaN"; "-nan";
   "1.#IND"; "1.#QNAN"; "<NA>"; "N/A"; "NA"; "NULL"; "NaN"; "None"; "n/a";
   "nan"; "null"].

(** A field after the missing-value filter: [None] is a missing value. *)
Definition na_filter (s : string) : option string :=
  if bool_decide (s ∈ STR_NA_VALUES) then None else Some s.

(** A header field that is empty is named after its position. *)
Definition placeholder (i : nat) (nm : string) : string :=
  if bool_decide (nm = "") then "Unnamed: " +:+ pretty i else nm.

(** The inner loop that renames a repeated column name: [old_col.1],
    [old_col.2], ... until a name not yet taken is reached. The loop runs
    at most once per name of the header, which bounds [fuel]. *)
Fixpoint dedup_while (fuel : nat) (this_header : list string)
    (old_col col : string) (cur_count : nat) (counts : gmap string nat)
  : string * nat * gmap string nat :=
  match fuel with
  | O => (col, cur_count, counts)
  | S fuel =>
      if bool_decide (0 < cur_count)%nat then
        let counts := <[old_col := S cur_count]> counts in
        let col := old_col +:+ "." +:+ pretty cur_count in
        let cur_count :=
          if bool_decide (col ∈ this_header) then S cur_count
          else default 0%nat (counts !! col) in
        dedup_while fuel this_header old_col col cur_count counts
      else (col, cur_count, counts)
  end.

Definition dedup_step (st : list string * gmap string nat) (i : nat)
  : list string * gmap string nat :=
  let '(this_header, counts) := st in
  match this_header !! i with
  | None => st
  | Some col =>
      let '(col', cur_count, counts') :=
        dedup_while (S (length this_header)) this_header col col
                    (default 0%nat (counts !! col)) counts in
      (<[i := col']> this_header, <[col' := S cur_count]> counts')
  end.

(** The column names read from the header record: placeholders for empty
    fields, then repeated names renamed, the given names being served
    before the placeholders. *)
Definition get_header (fields : list string) : list string :=
  let this_header := imap placeholder fields in
  let positions := seq 0 (length fields) in
  let unnamed := filter (λ i, fields !! i = Some "") positions in
  let named := filter (λ i, fields !! i ≠ Some "") positions in
  (foldl dedup_step (this_header, ∅) (named ++ unnamed)).1.

(** A value of a datetime column, and a value of a column left as text. *)
Definition as_datetime (o : option Z) : Cell :=
  match o with Some t => Timestamp t | None => NaT end.

Definition as_object (o : option string) : Cell :=
  match o with Some s => Obj s | None => NaN end.

Section Engine.
(** The C tokenizer: the bytes of the file cut into records and fields
    at the delimiter, blank lines skipped, quotes resolved. *)
Context (tokenize : string → string → Result (list (list string))).
(** Type inference of an ordinary column. *)
Context (infer_dtype : list (option string) → list Cell).
(** [to_datetime] on a whole column: the timestamps ([None] for a
    missing value), or no result when some value is not a date. *)
Context (to_datetime : list (option string) → option (list (option Z))).

(** The date converter of [read_csv]: when [to_datetime] raises, the
    strings are returned as they are. *)
Definition date_converter (strs : list (option string)) : list Cell :=
  match to_datetime strs with
  | Some ts => as_datetime <$> ts
  | None => as_object <$> strs
  end.

(** The fields of position [j], one per data record; a record that ends
    before [j] has a missing value there. *)
Definition raw_column (rows : list (list string)) (j : nat)
  : list (option string) :=
  (λ r, r !! j ≫= na_filter) <$> rows.

(** Number of fields the data records are read with: that of the
    header, or of the first data record when it is longer. *)
Definition table_width (header : list string) (rows : list (list string))
  : nat :=
  match rows with
  | [] => length header
  | r :: _ => length header `max` length r
  end.

(** [read_csv] on an entry taken as read in full: its bytes, or the
    exception of the read. The column named in [parse_dates] is the one
    that goes through the date converter; this is the conversion pandas
    performs when no data record is longer than the header (no leading
    index columns), and the properties about the values of a date column
    are stated for such files. *)
Definition read_csv (csv_file : Result string) (delimiter : string)
    (parse_dates : option (list string)) : Result DataFrame :=
  data ← csv_file;
  records ← tokenize delimiter data;
  match records with
  | [] => Raise EmptyDataError
  | header :: rows =>
      let names := get_header header in
      let dates := default [] parse_dates in
      if negb (forallb (λ c, bool_decide (c ∈ names)) dates)
      then Raise ValueError
      else
        let width := table_width header rows in
        if existsb (λ r, width <? length r)%nat rows
        then Raise ParserError
        else
          let leading_cols := (width - length header)%nat in
          let idx :=
            if bool_decide (leading_cols = 0)%nat
            then RangeIndex (length rows)
            else LabelIndex ((λ j, infer_dtype (raw_column rows j))
                               <$> seq 0 leading_cols) in
          let cols :=
            imap (λ k nm,
                    let strs := raw_column rows (leading_cols + k) in
                    (nm, if bool_decide (nm ∈ dates)
                         then date_converter strs
                         else infer_dtype strs))
                 names in
          Ok {| index := idx; frame := cols |}
  end.
End Engine.

End pd.

(** ** The cron expression of the schedule *)

Module Cron.

(** One of the five fields: every value, or one value. Lists, ranges and
    steps do not occur in this program's expression and are not read. *)
Inductive Field : Type :=
  | Any
  | Exactly (n : nat).

Record Schedule : Type := {
  f_minute : Field;
  f_hour : Field;
  f_day : Field;
  f_month : Field;
  f_weekday : Field
}.

(** A minute of the calendar; [weekday] counts from Sunday = 0. *)
Record Instant : Type := {
  minute : nat;
  hour : nat;
  day : nat;
  month : nat;
  weekday : nat
}.

Fixpoint parse_digits (acc : nat) (s : string) : option nat :=
  match s with
  | EmptyString => Some acc
  | String c s' =>
      let n := Ascii.nat_of_ascii c in
      if ((48 <=? n) && (n <=? 57))%nat
      then parse_digits (10 * acc + (n - 48))%nat s'
      else None
  end.

Definition parse_nat (s : string) : option nat :=
  match s with
  | EmptyString => None
  | _ => parse_digits 0%nat s
  end.

Definition lower_char (c : Ascii.ascii) : Ascii.ascii :=
  let n := Ascii.nat_of_ascii c in
  if ((65 <=? n) && (n <=? 90))%nat then Ascii.ascii_of_nat (n + 32) else c.

Fixpoint lower (s : string) : string :=
  match s with
  | EmptyString => EmptyString
  | String c s' => String (lower_char c) (lower s')
  end.

Definition month_names : list (string * nat) :=
  [("jan", 1); ("feb", 2); ("mar", 3); ("apr", 4); ("may", 5); ("jun", 6);
   ("jul", 7); ("aug", 8); ("sep", 9); ("oct", 10); ("nov", 11);
   ("dec", 12)]%nat.

Definition weekday_names : list (string * nat) :=
  [("sun", 0); ("mon", 1); ("tue", 2); ("wed", 3); ("thu", 4); ("fri", 5);
   ("sat", 6)]%nat.

Definition lookup_name (names : list (string * nat)) (s : string)
  : option nat :=
  (λ ip, ip.2.2) <$> list_find (λ p, p.1 = lower s) names.

(** A field with values in [lo .. hi]; names stand for their numbers. *)
Definition parse_field (names : list (string * nat)) (lo hi : nat)
    (s : string) : option Field :=
  if bool_decide (s = "*") then Some Any
  else
    n ← (match parse_nat s with
         | Some n => Some n
         | None => lookup_name names s
         end);
    if ((lo <=? n) && (n <=? hi))%nat then Some (Exactly n) else None.

(** Day of week: 7 is Sunday as well. *)
Definition parse_weekday (s : string) : option Field :=
  f ← parse_field weekday_names 0 7 s;
  Some (match f with
        | Exactly 7 => Exactly 0
        | _ => f
        end).

Definition parse (expr : string) : option Schedule :=
  match String.words expr with
  | [mi; h; d; mo; wd] =>
      mi ← parse_field [] 0 59 mi;
      h ← parse_field [] 0 23 h;
      d ← parse_field [] 1 31 d;
      mo ← parse_field month_names 1 12 mo;
      wd ← parse_weekday wd;
      Some {| f_minute := mi; f_hour := h; f_day := d; f_month := mo;
              f_weekday := wd |}
  | _ => None
  end.

Definition field_matches (f : Field) (v : nat) : bool :=
  match f with
  | Any => true
  | Exactly n => bool_decide (v = n)
  end.

(** The day matches when both day fields do; when both are restricted
    one of them is enough. *)
Definition day_matches (s : Schedule) (t : Instant) : bool :=
  match f_day s, f_weekday s with
  | Exactly _, Exactly _ =>
      field_matches (f_day s) (day t) || field_matches (f_weekday s) (weekday t)
  | _, _ =>
      field_matches (f_day s) (day t) && field_matches (f_weekday s) (weekday t)
  end.

Definition fires (s : Schedule) (t : Instant) : bool :=
  field_matches (f_minute s) (minute t)
  && field_matches (f_hour s) (hour t)
  && field_matches (f_month s) (month t)
  && day_matches s t.

End Cron.

(** ** Concrete parts to run the program on *)

Module Sample.

Definition LF : Ascii.ascii := Ascii.ascii_of_nat 10.

Fixpoint split_go (sep : Ascii.ascii) (cur : string) (s : string)
  : list string :=
  match s with
  | EmptyString => [String.rev cur]
  | String a s' =>
      if Ascii.eqb a sep then String.rev cur :: split_go sep EmptyString s'
      else split_go sep (String a cur) s'
  end.

(** [s.split(sep)] *)
Definition split (sep : Ascii.ascii) (s : string) : list string :=
  split_go sep EmptyString s.

(** The tokenizer on bytes free of quotes and carriage returns: the
    records are the non-empty lines, cut at the one-character delimiter. *)
Definition tokenize (delimiter : string) (data : string)
  : Result (list (list string)) :=
  match delimiter with
  | String sep EmptyString =>
      Ok (split sep <$> filter (λ l, l ≠ "") (split LF data))
  | _ => Raise ValueError
  end.

(** Type inference on columns of text: every value stays a string. *)
Definition infer_dtype (strs : list (option string)) : list Cell :=
  pd.as_object <$> strs.

Definition days_from_civil (y m d : Z) : Z :=
  let y := if m <=? 2 then y - 1 else y in
  let era := y `div` 400 in
  let yoe := y - era * 400 in
  let doy := (153 * (if 2 <? m then m - 3 else m + 9) + 2) `div` 5 + d - 1 in
  let doe := yoe * 365 + yoe `div` 4 - yoe `div` 100 + doy in
  era * 146097 + doe - 719468.

(** One date written [YYYY-MM-DD], as nanoseconds since the epoch. *)
Definition iso_date (s : string) : option Z :=
  match split (Ascii.ascii_of_nat 45) s with
  | [y; m; d] =>
      if bool_decide (String.length y = 4 ∧ String.length m = 2
                      ∧ String.length d = 2)%nat
      then
        y ← Cron.parse_nat y; m ← Cron.parse_nat m; d ← Cron.parse_nat d;
        if ((1 <=? m) && (m <=? 12) && (1 <=? d) && (d <=? 31))%nat
        then Some (days_from_civil (Z.of_nat y) (Z.of_nat m) (Z.of_nat d)
                   * 86400000000000)
        else None
      else None
  | _ => None
  end.

(** A [to_datetime] that knows ISO dates only: the column converts when
    each value that is present is one. *)
Definition to_datetime (strs : list (option string))
  : option (list (option Z)) :=
  mapM (λ o, match o with
             | Some s => Some <$> iso_date s
             | None => Some None
             end) strs.

Definition read_csv := pd.read_csv tokenize infer_dtype to_datetime.

Definition cell_text (c : Cell) : string :=
  match c with
  | Obj s => s
  | NaN => "nan"
  | Int64 z => pretty z
  | Float64 bits => pretty bits
  | Bool b => if b then "True" else "False"
  | Timestamp ns => pretty ns
  | NaT => "NaT"
  end.

Definition pipe_row (fields : list string) : string :=
  "|" +:+ foldr (λ f acc, " " +:+ f +:+ " |" +:+ acc) "" fields.

(** A plain pipe table: the header, the rule, one line per row. *)
Definition to_markdown (df : DataFrame) (with_index : bool) : string :=
  let body :=
    (λ i, pipe_row ((λ col, from_option cell_text "" (col.2 !! i)) <$> frame df))
      <$> seq 0 (n_rows df) in
  String.concat (String LF "")
    (pipe_row (columns df) :: pipe_row ((λ _, "---") <$> frame df) :: body).

(** A network that answers every GET alike. *)
Definition serve (r : Result Response) : Server := λ _ _, r.

Definition zip_response (entries : list ZipInfo) : Result Response :=
  Ok {| status_code := 200; content := ZipBytes entries |}.

Definition entry (nm : string) (data : string) : ZipInfo :=
  {| filename := nm; file_data := Ok data |}.

Definition lines (ls : list string) : string :=
  String.concat (String LF "") ls.

Definition tab (fields : list string) : string := String.concat TAB fields.

(** A two-row [aircraft.tab]. *)
Definition aircraft_tab : string :=
  lines [tab ["TC_DATA_SHEET"; "Last_Change_Date"];
         tab ["A1"; "2023-01-15"];
         tab ["B2"; "2023-02-20"]].

End Sample.

(** * Properties *)

(** ** zipfile: what the two views of the directory hold *)

Lemma RealGetContents_filelist_fold z cd :
  filelist (foldl (λ z x, {| filelist := filelist z ++ [x];
                             NameToInfo := <[filename x := x]> (NameToInfo z) |})
                  z cd)
  = filelist z ++ cd.
Proof.
  revert z. induction cd as [|x cd IH]; intros z; simpl.
  - by rewrite app_nil_r.
  - rewrite IH. simpl. by rewrite <- app_assoc.
Qed.

Lemma filelist_RealGetContents cd : filelist (RealGetContents cd) = cd.
Proof. unfold RealGetContents. by rewrite RealGetContents_filelist_fold. Qed.

Lemma namelist_RealGetContents cd : namelist (RealGetContents cd) = filename <$> cd.
Proof. unfold namelist. by rewrite filelist_RealGetContents. Qed.

(** A later entry replaces an earlier one of the same name. *)
Lemma RealGetContents_NameToInfo_fold z cd nm :
  NameToInfo (foldl (λ z x, {| filelist := filelist z ++ [x];
                               NameToInfo := <[filename x := x]> (NameToInfo z) |})
                    z cd) !! nm
  = match last (filter (λ x, filename x = nm) cd) with
    | Some x => Some x
    | None => NameToInfo z !! nm
    end.
Proof.
  revert z. induction cd as [|x cd IH]; intros z; simpl; [done|].
  rewrite IH. simpl. rewrite filter_cons. case_decide as Hx.
  - destruct (filter _ cd) as [|y l] eqn:E; simpl.
    + rewrite <- Hx. by rewrite lookup_insert_eq.
    + rewrite last_cons. by destruct (last l).
  - destruct (last _); [done|]. by rewrite lookup_insert_ne.
Qed.

Lemma NameToInfo_RealGetContents cd nm :
  NameToInfo (RealGetContents cd) !! nm = last (filter (λ x, filename x = nm) cd).
Proof.
  unfold RealGetContents. rewrite RealGetContents_NameToInfo_fold. simpl.
  by destruct (last _).
Qed.

Lemma zip_open_RealGetContents cd nm :
  zip_open (RealGetContents cd) nm
  = match last (filter (λ x, filename x = nm) cd) with
    | Some x => file_data x
    | None => Raise KeyError
    end.
Proof.
  unfold zip_open, getinfo. rewrite NameToInfo_RealGetContents.
  by destruct (last _).
Qed.

(** ** The fetch-and-parse function, case by case *)

Lemma extract_aircraft_data_eq server read_csv date url log :
  extract_aircraft_data server read_csv date url log =
    let rq := {| req_url := url; req_timeout := 15 |} in
    (match server log rq with
     | Raise e => Raise e
     | Ok r =>
         if bool_decide (status_code r = 200) then
           match content r with
           | NotAZip => Raise BadZipFile
           | ZipBytes [] => Raise IndexError
           | ZipBytes ((e :: _) as cd) =>
               read_csv (zip_open (RealGetContents cd) (filename e)) TAB
                        (parse_dates_of date)
           end
         else Raise UnboundLocalError
     end, log ++ [rq]).
Proof.
  unfold extract_aircraft_data, requests_get, parse_dates_of.
  unfold mbind, IO_bind, io_bind, mret, IO_ret, io_ret, lift, raise.
  simpl. destruct (server log _) as [r|e]; [|done].
  case_bool_decide; [|done].
  destruct (content r) as [|cd]; simpl; [done|].
  rewrite namelist_RealGetContents.
  destruct cd as [|e cd]; simpl; [done|].
  destruct (truthy date); by destruct (read_csv _ _ _).
Qed.

(** Every call sends exactly one GET, with the 15 second timeout. *)
Lemma extract_aircraft_data_log server read_csv date url log :
  (extract_aircraft_data server read_csv date url log).2
  = log ++ [{| req_url := url; req_timeout := 15 |}].
Proof. by rewrite extract_aircraft_data_eq. Qed.

(** C2: when the GET is answered with a status other than 200, the call
    raises (the unbound [df] at [return df]) and returns no frame at all;
    the one GET it sent is the only one, whatever the server would have
    answered to a second attempt. *)
Theorem C2_non_200_status_fails_without_retry :
  ∀ (server : Server) read_csv (date : option string) (url : string)
    (log : list Request) (r : Response),
    server log {| req_url := url; req_timeout := 15 |} = Ok r →
    status_code r ≠ 200 →
    extract_aircraft_data server read_csv date url log
    = (Raise UnboundLocalError,
       log ++ [{| req_url := url; req_timeout := 15 |}]).
Proof.
  intros server read_csv date url log r Hget Hstatus.
  rewrite extract_aircraft_data_eq. simpl. rewrite Hget.
  by rewrite bool_decide_eq_false_2.
Qed.

Lemma C2_non_200_status_witness :
  extract_aircraft_data
    (Sample.serve (Ok {| status_code := 404; content := NotAZip |}))
    Sample.read_csv (Some "Last_Change_Date")
    "https://av-info.faa.gov/data/ACRef/tab/aircraft.zip" []
  = (Raise UnboundLocalError,
     [{| req_url := "https://av-info.faa.gov/data/ACRef/tab/aircraft.zip";
         req_timeout := 15 |}]).
Proof.
  apply (C2_non_200_status_fails_without_retry
           (Sample.serve (Ok {| status_code := 404; content := NotAZip |}))
           Sample.read_csv _ _ [] {| status_code := 404; content := NotAZip |}).
  - reflexivity.
  - simpl. lia.
Defined.

(** C9: when the downloaded archive lists no entry, the call raises
    [IndexError] at [namelist()[0]] and returns no frame; the reader is
    never consulted, the outcome being the same for every reader. *)
Theorem C9_empty_archive_raises_IndexError :
  ∀ (server : Server) read_csv (date : option string) (url : string)
    (log : list Request) (r : Response),
    server log {| req_url := url; req_timeout := 15 |} = Ok r →
    status_code r = 200 →
    content r = ZipBytes [] →
    extract_aircraft_data server read_csv date url log
    = (Raise IndexError, log ++ [{| req_url := url; req_timeout := 15 |}]).
Proof.
  intros server read_csv date url log r Hget Hstatus Hbody.
  rewrite extract_aircraft_data_eq. simpl. rewrite Hget, Hbody.
  by rewrite bool_decide_eq_true_2.
Qed.

Lemma C9_empty_archive_witness :
  extract_aircraft_data (Sample.serve (Sample.zip_response []))
    Sample.read_csv (Some "LCHG_DATE") "u" []
  = (Raise IndexError, [{| req_url := "u"; req_timeout := 15 |}]).
Proof.
  apply (C9_empty_archive_raises_IndexError
           (Sample.serve (Sample.zip_response [])) Sample.read_csv
           (Some "LCHG_DATE") "u" []
           {| status_code := 200; content := ZipBytes [] |}).
  - reflexivity.
  - reflexivity.
  - reflexivity.
Defined.

(** ** pandas: reading without [parse_dates] *)

Lemma read_csv_no_parse_dates tokenize infer_dtype to_datetime csv_file delimiter :
  pd.read_csv tokenize infer_dtype to_datetime csv_file delimiter None
  = (data ← csv_file;
     records ← tokenize delimiter data;
     match records with
     | [] => Raise EmptyDataError
     | header :: rows =>
         let width := pd.table_width header rows in
         if existsb (λ r, width <? length r)%nat rows
         then Raise ParserError
         else
           let leading_cols := (width - length header)%nat in
           Ok {| index :=
                   if bool_decide (leading_cols = 0)%nat
                   then RangeIndex (length rows)
                   else LabelIndex ((λ j, infer_dtype (pd.raw_column rows j))
                                      <$> seq 0 leading_cols);
                 frame :=
                   imap (λ k nm,
                           (nm, infer_dtype (pd.raw_column rows (leading_cols + k))))
                        (pd.get_header header) |}
     end).
Proof.
  unfold pd.read_csv. destruct csv_file as [data|e]; simpl; [|done].
  by destruct (tokenize delimiter data) as [[|header rows]|e].
Qed.

(** Without [parse_dates] the converter of dates plays no part. *)
Lemma read_csv_no_parse_dates_converter tokenize infer_dtype td1 td2 csv_file delimiter :
  pd.read_csv tokenize infer_dtype td1 csv_file delimiter None
  = pd.read_csv tokenize infer_dtype td2 csv_file delimiter None.
Proof. by rewrite !read_csv_no_parse_dates. Qed.

(** C10: an empty-string [date] takes the same branch as [None]: the test
    [if date] is false for both, [read_csv] is called without
    [parse_dates], and the two calls give the same outcome; with the pandas
    reader no column goes through the date converter, whichever it is. *)
Theorem C10_empty_date_is_no_date :
  truthy (Some "") = truthy None
  ∧ (∀ (server : Server) read_csv (url : string) (log : list Request),
       extract_aircraft_data server read_csv (Some "") url log
       = extract_aircraft_data server read_csv None url log)
  ∧ (∀ (server : Server) tokenize infer_dtype td1 td2 (url : string)
       (log : list Request),
       extract_aircraft_data server
         (pd.read_csv tokenize infer_dtype td1) (Some "") url log
       = extract_aircraft_data server
           (pd.read_csv tokenize infer_dtype td2) None url log).
Proof.
  split; [done|]. split.
  - intros. by rewrite !extract_aircraft_data_eq.
  - intros. rewrite !extract_aircraft_data_eq. simpl.
    destruct (server log _) as [r|e]; [|done].
    case_bool_decide; [|done].
    by destruct (content r) as [|[|e cd]].
Qed.

(** ** The registry *)

Lemma data_sets_pairs_NoDup : NoDup (group_name_pair <$> data_sets).
Proof. by apply (bool_decide_unpack _). Qed.

Lemma data_sets_pairs_differ (i j : nat) (d1 d2 : Descriptor) :
  data_sets !! i = Some d1 →
  data_sets !! j = Some d2 →
  i ≠ j →
  group_name_pair d1 ≠ group_name_pair d2.
Proof.
  intros Hi Hj Hij Heq. apply Hij.
  eapply (NoDup_lookup _ i j (group_name_pair d1) data_sets_pairs_NoDup).
  - by rewrite list_lookup_fmap, Hi.
  - by rewrite list_lookup_fmap, Hj, Heq.
Qed.

(** C4: two descriptors at different places of the registry differ in
    their (group, name) pair; said otherwise, within one group the names
    are all different. *)
Theorem C4_group_name_pairs_unique :
  ∀ (i j : nat) (d1 d2 : Descriptor),
    data_sets !! i = Some d1 →
    data_sets !! j = Some d2 →
    i ≠ j →
    group_name_pair d1 ≠ group_name_pair d2
    ∧ (group d1 = group d2 → name d1 ≠ name d2).
Proof.
  intros i j d1 d2 Hi Hj Hij.
  pose proof (data_sets_pairs_differ i j d1 d2 Hi Hj Hij) as Hne.
  split; [done|].
  intros Hg Hn. apply Hne. unfold group_name_pair. by rewrite Hg, Hn.
Qed.

Lemma C4_group_name_pairs_witness :
  group_name_pair
    {| group := "aircraft"; name := "aircraft";
       url := "https://av-info.faa.gov/data/ACRef/tab/aircraft.zip";
       date := Some "Last_Change_Date";
       site := "https://av-info.faa.gov/dd_sublevel.asp?Folder=\ACREF" |}
  ≠ group_name_pair
      {| group := "reference"; name := "aircraft_ref";
         url := "https://av-info.faa.gov/data/REFERENCE/tab/aircraft.zip";
         date := None;
         site := "https://av-info.faa.gov/dd_sublevel.asp?Folder=\REFERENCE" |}
  ∧ ("aircraft" = "reference" → "aircraft" ≠ "aircraft_ref").
Proof.
  apply (C4_group_name_pairs_unique 0 5).
  - reflexivity.
  - reflexivity.
  - lia.
Defined.

(** ** Which entry of the archive is read *)

(** C3, as the code has it: with a 200 answer whose body is an archive of
    at least one entry, the call reads the entry that the archive's name
    table holds for the first listed name, that is the last entry of the
    listing bearing that name, and parses it as the tab-delimited file.
    When no later entry repeats the first entry's name this is the first
    entry itself, and the other entries play no part in the result. *)
Theorem C3_first_listed_name_is_read :
  ∀ (server : Server) read_csv (date : option string) (url : string)
    (log : list Request) (r : Response) (e : ZipInfo) (rest : list ZipInfo),
    server log {| req_url := url; req_timeout := 15 |} = Ok r →
    status_code r = 200 →
    content r = ZipBytes (e :: rest) →
    ∃ e' : ZipInfo,
      last (filter (λ x, filename x = filename e) (e :: rest)) = Some e'
      ∧ extract_aircraft_data server read_csv date url log
        = (read_csv (file_data e') TAB (parse_dates_of date),
           log ++ [{| req_url := url; req_timeout := 15 |}])
      ∧ (filename e ∉ filename <$> rest → e' = e).
Proof.
  intros server read_csv date url log r e rest Hget Hstatus Hbody.
  rewrite extract_aircraft_data_eq. simpl. rewrite Hget, Hbody.
  rewrite bool_decide_eq_true_2 by done.
  rewrite zip_open_RealGetContents.
  rewrite filter_cons, decide_True by done.
  rewrite last_cons.
  destruct (last (filter _ rest)) as [e'|] eqn:Hlast.
  - exists e'. split; [done|]. split; [done|].
    intros Hfresh. exfalso. apply Hfresh.
    apply last_Some in Hlast as [l' Hl'].
    assert (e' ∈ filter (λ x, filename x = filename e) rest) as Hin.
    { rewrite Hl'. apply elem_of_app. right. apply list_elem_of_singleton. done. }
    apply list_elem_of_filter in Hin as [Hname Hin].
    rewrite <- Hname. by apply list_elem_of_fmap_2.
  - exists e. done.
Qed.

Lemma C3_first_listed_name_witness :
  ∃ e' : ZipInfo,
    last (filter (λ x, filename x = "aircraft.tab")
            [Sample.entry "aircraft.tab" "x"; Sample.entry "readme.txt" "y"])
    = Some e'
    ∧ extract_aircraft_data
        (Sample.serve (Sample.zip_response
           [Sample.entry "aircraft.tab" "x"; Sample.entry "readme.txt" "y"]))
        Sample.read_csv None "u" []
      = (Sample.read_csv (file_data e') TAB None,
         [{| req_url := "u"; req_timeout := 15 |}])
    ∧ ("aircraft.tab" ∉ filename <$> [Sample.entry "readme.txt" "y"]
       → e' = Sample.entry "aircraft.tab" "x").
Proof.
  apply (C3_first_listed_name_is_read
           (Sample.serve (Sample.zip_response
              [Sample.entry "aircraft.tab" "x"; Sample.entry "readme.txt" "y"]))
           Sample.read_csv None "u" []
           {| status_code := 200;
              content := ZipBytes [Sample.entry "aircraft.tab" "x";
                                   Sample.entry "readme.txt" "y"] |}).
  - reflexivity.
  - reflexivity.
  - reflexivity.
Defined.

(** C3 as stated fails: two archives with the same first entry, the second
    one carrying a later entry of the same name. The call on the second
    archive returns the frame of the later entry, not that of the first
    entry, so a further entry did change the result. *)
Lemma C3_later_entry_counterexample :
  let first := Sample.entry "aircraft.tab"
                 (Sample.lines [Sample.tab ["TC"; "MODEL"]; Sample.tab ["A1"; "PA-28"]]) in
  let later := Sample.entry "aircraft.tab"
                 (Sample.lines [Sample.tab ["CODE"]; Sample.tab ["zz"]]) in
  (extract_aircraft_data (Sample.serve (Sample.zip_response [first]))
     Sample.read_csv None "u" []).1
  = Ok {| index := RangeIndex 1;
          frame := [("TC", [Obj "A1"]); ("MODEL", [Obj "PA-28"])] |}
  ∧ (extract_aircraft_data (Sample.serve (Sample.zip_response [first; later]))
       Sample.read_csv None "u" []).1
    = Ok {| index := RangeIndex 1; frame := [("CODE", [Obj "zz"])] |}
  ∧ (extract_aircraft_data (Sample.serve (Sample.zip_response [first; later]))
       Sample.read_csv None "u" []).1
    ≠ Sample.read_csv (file_data first) TAB None.
Proof.
  split; [by vm_compute|]. split; [by vm_compute|].
  vm_compute. discriminate.
Qed.

(** ** The factory and the definitions *)

Lemma head_n_rows df : n_rows (head df) = (5 `min` n_rows df)%nat.
Proof.
  unfold n_rows, head. simpl. destruct (index df) as [stop|arrays]; simpl; [done|].
  rewrite list_lookup_fmap. destruct (arrays !! 0%nat) as [a|]; simpl; [|done].
  by rewrite length_take.
Qed.

Lemma head_columns df : columns (head df) = columns df.
Proof.
  unfold columns, head. simpl. rewrite <- list_fmap_compose.
  by apply list_fmap_ext; intros i [nm vs].
Qed.

Lemma head_column df c vs :
  column df c = Some vs → column (head df) c = Some (take 5 vs).
Proof.
  unfold column, head. simpl.
  induction (frame df) as [|[nm vs'] fr IH]; simpl; [done|].
  case_decide; [|done]. by intros [= ->].
Qed.

(** C6: whatever the descriptor, when its fetch-and-parse returns a frame
    the unit built by the factory returns that frame with exactly two
    metadata entries: [website], the markdown sentence whose link target is
    the descriptor's [site], and [preview], the markdown table of
    [df.head()], which has the first 5 rows of the frame at most (5 rows
    for a frame of 100 rows) and the same columns, cut to their first 5
    values. *)
Theorem C6_unit_metadata :
  ∀ (server : Server) read_csv to_markdown (d : Descriptor)
    (log log' : list Request) (df : DataFrame),
    extract_aircraft_data server read_csv (date d) (url d) log = (Ok df, log') →
    ∃ out : Output,
      compute_fn (build_asset server read_csv to_markdown d) log = (Ok out, log')
      ∧ value out = df
      ∧ metadata out !! "website"
        = Some (MarkdownMetadataValue
                  ("This data was obtained from this [website](" +:+ site d +:+ ")."))
      ∧ metadata out !! "preview"
        = Some (MarkdownMetadataValue (to_markdown (head df) false))
      ∧ dom (metadata out) = ({["website"; "preview"]} : gset string)
      ∧ n_rows (head df) = (5 `min` n_rows df)%nat
      ∧ (n_rows df = 100%nat → n_rows (head df) = 5%nat)
      ∧ columns (head df) = columns df
      ∧ (∀ c vs, column df c = Some vs → column (head df) c = Some (take 5 vs)).
Proof.
  intros server read_csv to_markdown d log log' df Hextract.
  eexists. split.
  { simpl. unfold _asset, mbind, IO_bind, io_bind. rewrite Hextract. reflexivity. }
  simpl. split; [done|]. split; [by rewrite lookup_insert_eq|].
  split; [by rewrite lookup_insert_ne, lookup_insert_eq|].
  split.
  { rewrite !dom_insert_L, dom_empty_L. set_solver. }
  split; [apply head_n_rows|]. split.
  { intros H100. rewrite head_n_rows, H100. done. }
  split; [apply head_columns|]. apply head_column.
Qed.

(** C7: the list of units is the factory mapped over the registry: one
    unit per descriptor, in order, each the factory's result on its
    descriptor; its key is [group; name], which the I/O manager stores as
    table [name] of schema [group]; the keys are pairwise distinct. *)
Theorem C7_one_unit_per_descriptor :
  ∀ (server : Server) read_csv to_markdown (i : nat) (d : Descriptor),
    data_sets !! i = Some d →
    length (faa_assets server read_csv to_markdown) = length data_sets
    ∧ faa_assets server read_csv to_markdown !! i
      = Some (build_asset server read_csv to_markdown d)
    ∧ asset_key (build_asset server read_csv to_markdown d) = [group d; name d]
    ∧ get_table_slice (asset_key (build_asset server read_csv to_markdown d))
      = Some (group d, name d)
    ∧ compute_fn (build_asset server read_csv to_markdown d)
      = _asset server read_csv to_markdown d
    ∧ NoDup (asset_key <$> faa_assets server read_csv to_markdown)
    ∧ assets (defs server read_csv to_markdown)
      = faa_assets server read_csv to_markdown.
Proof.
  intros server read_csv to_markdown i d Hd.
  split; [by unfold faa_assets; rewrite length_fmap|].
  split; [by unfold faa_assets; rewrite list_lookup_fmap, Hd|].
  split; [done|]. split; [done|]. split; [done|]. split; [|done].
  unfold faa_assets. rewrite <- list_fmap_compose.
  apply (NoDup_fmap_2_strong _).
  - intros d1 d2 Hd1 Hd2 Heq.
    apply list_elem_of_lookup in Hd1 as [i1 Hi1].
    apply list_elem_of_lookup in Hd2 as [i2 Hi2].
    destruct (decide (i1 = i2)) as [->|Hne]; [congruence|].
    destruct (data_sets_pairs_differ i1 i2 d1 d2 Hi1 Hi2 Hne).
    unfold group_name_pair. unfold asset_key in Heq. simpl in Heq. congruence.
  - eapply NoDup_fmap_1. apply data_sets_pairs_NoDup.
Qed.

Lemma C6_unit_metadata_witness :
  let d := {| group := "aircraft"; name := "aircraft"; url := "u";
              date := None; site := "https://av-info.faa.gov/doc" |} in
  let df := {| index := RangeIndex 2;
               frame := [("TC_DATA_SHEET", [Obj "A1"; Obj "B2"]);
                         ("Last_Change_Date", [Obj "2023-01-15"; Obj "2023-02-20"])] |} in
  let server := Sample.serve (Sample.zip_response
                  [Sample.entry "aircraft.tab" Sample.aircraft_tab]) in
  ∃ out : Output,
    compute_fn (build_asset server Sample.read_csv Sample.to_markdown d) []
    = (Ok out, [{| req_url := "u"; req_timeout := 15 |}])
    ∧ value out = df
    ∧ metadata out !! "website"
      = Some (MarkdownMetadataValue
                ("This data was obtained from this [website](" +:+ site d +:+ ")."))
    ∧ metadata out !! "preview"
      = Some (MarkdownMetadataValue (Sample.to_markdown (head df) false))
    ∧ dom (metadata out) = ({["website"; "preview"]} : gset string)
    ∧ n_rows (head df) = (5 `min` n_rows df)%nat
    ∧ (n_rows df = 100%nat → n_rows (head df) = 5%nat)
    ∧ columns (head df) = columns df
    ∧ (∀ c vs, column df c = Some vs → column (head df) c = Some (take 5 vs)).
Proof.
  intros d df server.
  apply (C6_unit_metadata server Sample.read_csv Sample.to_markdown d []).
  vm_compute. reflexivity.
Defined.

Lemma C7_one_unit_per_descriptor_witness :
  let d := {| group := "aircraft"; name := "ata_codes";
              url := "https://av-info.faa.gov/data/ACREF/tab/ata.zip";
              date := Some "Last_Change_Date";
              site := "https://av-info.faa.gov/dd_sublevel.asp?Folder=\ACREF" |} in
  let server := Sample.serve (Sample.zip_response []) in
  let units := faa_assets server Sample.read_csv Sample.to_markdown in
  let unit := build_asset server Sample.read_csv Sample.to_markdown d in
  length units = length data_sets
  ∧ units !! 1%nat = Some unit
  ∧ asset_key unit = ["aircraft"; "ata_codes"]
  ∧ get_table_slice (asset_key unit) = Some ("aircraft", "ata_codes")
  ∧ compute_fn unit = _asset server Sample.read_csv Sample.to_markdown d
  ∧ NoDup (asset_key <$> units)
  ∧ assets (defs server Sample.read_csv Sample.to_markdown) = units.
Proof.
  intros d server units unit.
  apply (C7_one_unit_per_descriptor server Sample.read_csv Sample.to_markdown 1 d).
  reflexivity.
Defined.

(** C8: the definitions carry one schedule; its job is the one job, which
    selects every unit; its cron expression reads as minute 0, hour 17, any
    day of the month, any month, Monday, so it fires at the instants whose
    weekday is Monday, hour 17 and minute 0, and at no other: once a week. *)
Theorem C8_weekly_monday_17h_schedule :
  ∀ (server : Server) read_csv to_markdown,
    schedules (defs server read_csv to_markdown)
    = [faa_schedule server read_csv to_markdown]
    ∧ job (faa_schedule server read_csv to_markdown)
      = faa_job server read_csv to_markdown
    ∧ selection (faa_job server read_csv to_markdown)
      = faa_assets server read_csv to_markdown
    ∧ length (selection (faa_job server read_csv to_markdown)) = length data_sets
    ∧ ∃ c : Cron.Schedule,
        Cron.parse (cron_schedule (faa_schedule server read_csv to_markdown)) = Some c
        ∧ ∀ t : Cron.Instant,
            Cron.fires c t = true
            ↔ (Cron.weekday t = 1 ∧ Cron.hour t = 17 ∧ Cron.minute t = 0)%nat.
Proof.
  intros server read_csv to_markdown.
  split; [done|]. split; [done|]. split; [done|].
  split; [done|].
  eexists. split; [vm_compute; reflexivity|].
  intros t. unfold Cron.fires, Cron.day_matches. simpl.
  rewrite !andb_true_r, !andb_true_iff, !bool_decide_eq_true. tauto.
Qed.

(** ** pandas: the column names and the date column *)

#[local] Arguments pd.read_csv : simpl never.

Lemma imap_placeholder_id (fields : list string) :
  "" ∉ fields → imap pd.placeholder fields = fields.
Proof.
  intros Hne. apply list_eq. intros i. rewrite list_lookup_imap.
  destruct (fields !! i) as [nm|] eqn:Hi; simpl; [|done].
  unfold pd.placeholder. rewrite bool_decide_eq_false_2; [done|].
  intros ->. apply Hne. by eapply list_elem_of_lookup_2.
Qed.

Lemma filter_unnamed_nil (fields : list string) (l : list nat) :
  "" ∉ fields → filter (λ i, fields !! i = Some "") l = [].
Proof.
  intros Hne. induction l as [|i l IH]; [done|].
  rewrite filter_cons, decide_False; [done|].
  intros Hi. apply Hne. by eapply list_elem_of_lookup_2.
Qed.

Lemma filter_named_all (fields : list string) (l : list nat) :
  "" ∉ fields → filter (λ i, fields !! i ≠ Some "") l = l.
Proof.
  intros Hne. induction l as [|i l IH]; [done|].
  rewrite filter_cons, decide_True, IH; [done|].
  intros Hi. apply Hne. by eapply list_elem_of_lookup_2.
Qed.

Lemma dedup_fold_distinct (fields : list string) (k : nat) :
  NoDup fields → (k ≤ length fields)%nat →
  ∃ counts : gmap string nat,
    foldl pd.dedup_step (fields, ∅) (seq 0 k) = (fields, counts)
    ∧ ∀ nm, nm ∉ take k fields → counts !! nm = None.
Proof.
  intros Hnd. induction k as [|k IH]; intros Hk.
  - exists ∅. done.
  - destruct IH as (counts & Hfold & Hcounts); [lia|].
    rewrite seq_S, foldl_snoc, Hfold. simpl.
    destruct (lookup_lt_is_Some_2 fields k) as [col Hcol]; [lia|].
    rewrite Hcol.
    assert (col ∉ take k fields) as Hfresh.
    { intros Hin. apply elem_of_take in Hin as (j & Hj & Hlt).
      pose proof (NoDup_lookup _ _ _ _ Hnd Hj Hcol). lia. }
    rewrite (Hcounts col Hfresh). simpl.
    rewrite list_insert_id by done.
    eexists. split; [done|].
    intros nm Hnm. rewrite (take_S_r _ _ _ Hcol) in Hnm.
    rewrite lookup_insert_ne.
    + apply Hcounts. intros Hin. apply Hnm. apply elem_of_app. by left.
    + intros ->. apply Hnm. apply elem_of_app. right. by apply list_elem_of_singleton.
Qed.

Lemma get_header_distinct (fields : list string) :
  NoDup fields → "" ∉ fields → pd.get_header fields = fields.
Proof.
  intros Hnd Hne. unfold pd.get_header.
  rewrite imap_placeholder_id, filter_unnamed_nil, filter_named_all, app_nil_r by done.
  destruct (dedup_fold_distinct fields (length fields) Hnd) as (counts & -> & _); done.
Qed.

Lemma columns_imap (g : nat → string → list Cell) (names : list string) ix :
  columns {| index := ix; frame := imap (λ k nm, (nm, g k nm)) names |} = names.
Proof.
  unfold columns. simpl. rewrite fmap_imap.
  apply list_eq. intros i. rewrite list_lookup_imap. by destruct (names !! i).
Qed.


Lemma existsb_too_wide_false (w : nat) (rows : list (list string)) :
  Forall (λ row, length row ≤ w)%nat rows →
  existsb (λ r, w <? length r)%nat rows = false.
Proof.
  induction 1 as [|row rows Hrow _ IH]; simpl; [done|].
  rewrite IH, orb_false_r. apply Nat.ltb_ge. done.
Qed.



Lemma zip_open_first_not_repeated (e : ZipInfo) (rest : list ZipInfo) :
  filename e ∉ filename <$> rest →
  zip_open (RealGetContents (e :: rest)) (filename e) = file_data e.
Proof.
  intros Hfresh. rewrite zip_open_RealGetContents.
  rewrite filter_cons, decide_True by done. rewrite last_cons.
  destruct (last (filter _ rest)) as [e'|] eqn:Hlast; [|done].
  exfalso. apply Hfresh.
  apply last_Some in Hlast as [l' Hl'].
  assert (e' ∈ filter (λ x, filename x = filename e) rest) as Hin.
  { rewrite Hl'. apply elem_of_app. right. by apply list_elem_of_singleton. }
  apply list_elem_of_filter in Hin as [Hname Hin].
  rewrite <- Hname. by apply list_elem_of_fmap_2.
Qed.

Lemma table_width_no_long_record (header : list string) (rows : list (list string)) :
  Forall (λ row, length row ≤ length header)%nat rows →
  pd.table_width header rows = length header.
Proof.
  intros Hrows. unfold pd.table_width.
  destruct rows as [|row rows]; [done|].
  apply Forall_cons in Hrows as [Hrow _]. lia.
Qed.


(** C5, as the code has it: for a 200 answer whose archive holds one
    entry, a tab-delimited file with a header record and data records none
    of which is longer than the table, the call without a date column
    returns a frame whose columns are the header's names exactly, in
    content and order, provided these names are non-empty and pairwise
    distinct; every column holds the inferred values of its fields and none
    went through the date converter. (An empty header name is replaced by
    [Unnamed: position], a repeated one gets a numeric suffix.) *)
Theorem C5_columns_match_distinct_header :
  ∀ (server : Server) tokenize infer_dtype to_datetime (url : string)
    (log : list Request) (r : Response) (nm data : string)
    (header : list string) (rows : list (list string)),
    server log {| req_url := url; req_timeout := 15 |} = Ok r →
    status_code r = 200 →
    content r = ZipBytes [{| filename := nm; file_data := Ok data |}] →
    tokenize TAB data = Ok (header :: rows) →
    Forall (λ row, length row ≤ pd.table_width header rows)%nat rows →
    NoDup header →
    "" ∉ header →
    ∃ df : DataFrame,
      extract_aircraft_data server
        (pd.read_csv tokenize infer_dtype to_datetime) None url log
      = (Ok df, log ++ [{| req_url := url; req_timeout := 15 |}])
      ∧ columns df = header
      ∧ frame df
        = imap (λ k c,
                  (c, infer_dtype
                        (pd.raw_column rows
                           (pd.table_width header rows - length header + k))))
               header.
Proof.
  intros server tokenize infer_dtype to_datetime url log r nm data header rows
         Hget Hstatus Hbody Htok Hrows Hnd Hne.
  rewrite extract_aircraft_data_eq. simpl. rewrite Hget, Hbody.
  rewrite bool_decide_eq_true_2 by done.
  rewrite zip_open_RealGetContents.
  rewrite filter_cons, decide_True by done. simpl.
  unfold parse_dates_of. simpl.
  rewrite read_csv_no_parse_dates. simpl. rewrite Htok. simpl.
  rewrite existsb_too_wide_false by done.
  rewrite get_header_distinct by done.
  eexists. split; [done|]. simpl. split; [|done].
  apply (columns_imap (λ k _, infer_dtype (pd.raw_column rows
           (pd.table_width header rows - length header + k)))).
Qed.


Lemma C5_columns_match_distinct_header_witness :
  ∃ df : DataFrame,
    extract_aircraft_data
      (Sample.serve (Sample.zip_response
         [Sample.entry "aircraft.tab" Sample.aircraft_tab]))
      Sample.read_csv None "u" []
    = (Ok df, [{| req_url := "u"; req_timeout := 15 |}])
    ∧ columns df = ["TC_DATA_SHEET"; "Last_Change_Date"]
    ∧ frame df
      = [("TC_DATA_SHEET", [Obj "A1"; Obj "B2"]);
         ("Last_Change_Date", [Obj "2023-01-15"; Obj "2023-02-20"])].
Proof.
  apply (C5_columns_match_distinct_header
           (Sample.serve (Sample.zip_response
              [Sample.entry "aircraft.tab" Sample.aircraft_tab]))
           Sample.tokenize Sample.infer_dtype Sample.to_datetime "u" []
           {| status_code := 200;
              content := ZipBytes [Sample.entry "aircraft.tab" Sample.aircraft_tab] |}
           "aircraft.tab" Sample.aircraft_tab
           ["TC_DATA_SHEET"; "Last_Change_Date"]
           [["A1"; "2023-01-15"]; ["B2"; "2023-02-20"]]).
  - reflexivity.
  - reflexivity.
  - reflexivity.
  - vm_compute. reflexivity.
  - repeat constructor.
  - apply (bool_decide_unpack _). vm_compute. reflexivity.
  - apply (bool_decide_unpack _). vm_compute. reflexivity.
Defined.

(** C5 as stated fails: a header that repeats a name. The call returns a
    frame whose second column is [MODEL.1], which is not in the header. *)
Lemma C5_repeated_header_name_counterexample :
  let data := Sample.lines [Sample.tab ["MODEL"; "MODEL"];
                            Sample.tab ["PA-28"; "C172"]] in
  Sample.tokenize TAB data = Ok [["MODEL"; "MODEL"]; ["PA-28"; "C172"]]
  ∧ ∃ df : DataFrame,
      (extract_aircraft_data
         (Sample.serve (Sample.zip_response [Sample.entry "aircraft.tab" data]))
         Sample.read_csv None "u" []).1 = Ok df
      ∧ columns df = ["MODEL"; "MODEL.1"]
      ∧ columns df ≠ ["MODEL"; "MODEL"].
Proof.
  split; [by vm_compute|].
  eexists. split; [by vm_compute|]. split; [by vm_compute|].
  vm_compute. discriminate.
Qed.




(** * Further properties of the fetch-and-parse function and of the units *)

(** ** Failures of [extract_aircraft_data] (faa_assets.py 126-144) *)

(** X1: when [requests.get] itself raises (no answer, timeout), the call
    raises the same exception: nothing catches it; the one GET was sent and
    neither the archive nor the reader is touched. *)
Theorem X1_network_failure_propagates :
  ∀ (server : Server) read_csv (date : option string) (url : string)
    (log : list Request) (e : Exception),
    server log {| req_url := url; req_timeout := 15 |} = Raise e →
    extract_aircraft_data server read_csv date url log
    = (Raise e, log ++ [{| req_url := url; req_timeout := 15 |}]).
Proof.
  intros server read_csv date url log e Hget.
  rewrite extract_aircraft_data_eq. simpl. by rewrite Hget.
Qed.

Lemma X1_network_failure_witness :
  extract_aircraft_data (Sample.serve (Raise ConnectionError))
    Sample.read_csv (Some "LCHG_DATE") "u" []
  = (Raise ConnectionError, [{| req_url := "u"; req_timeout := 15 |}]).
Proof.
  apply (X1_network_failure_propagates
           (Sample.serve (Raise ConnectionError)) Sample.read_csv
           (Some "LCHG_DATE") "u" [] ConnectionError).
  reflexivity.
Defined.

(** X2: a 200 answer whose body is no ZIP archive makes the call raise
    [BadZipFile], for every reader and every [date]. *)
Theorem X2_body_not_a_zip_raises_BadZipFile :
  ∀ (server : Server) read_csv (date : option string) (url : string)
    (log : list Request) (r : Response),
    server log {| req_url := url; req_timeout := 15 |} = Ok r →
    status_code r = 200 →
    content r = NotAZip →
    extract_aircraft_data server read_csv date url log
    = (Raise BadZipFile, log ++ [{| req_url := url; req_timeout := 15 |}]).
Proof.
  intros server read_csv date url log r Hget Hstatus Hbody.
  rewrite extract_aircraft_data_eq. simpl. rewrite Hget, Hbody.
  by rewrite bool_decide_eq_true_2.
Qed.

Lemma X2_body_not_a_zip_witness :
  extract_aircraft_data
    (Sample.serve (Ok {| status_code := 200; content := NotAZip |}))
    Sample.read_csv None "u" []
  = (Raise BadZipFile, [{| req_url := "u"; req_timeout := 15 |}]).
Proof.
  apply (X2_body_not_a_zip_raises_BadZipFile
           (Sample.serve (Ok {| status_code := 200; content := NotAZip |}))
           Sample.read_csv None "u" []
           {| status_code := 200; content := NotAZip |}).
  - reflexivity.
  - reflexivity.
  - reflexivity.
Defined.

(** X3: a frame is returned only on the one path through the function:
    the GET was answered with status 200, the body was an archive of at
    least one entry, and the frame is what the reader made of the entry
    opened under the first listed name, with [parse_dates] as [date]
    dictates; the log grew by this one GET. *)
Theorem X3_frame_only_from_200_and_first_name :
  ∀ (server : Server) read_csv (date : option string) (url : string)
    (log log' : list Request) (df : DataFrame),
    extract_aircraft_data server read_csv date url log = (Ok df, log') →
    log' = log ++ [{| req_url := url; req_timeout := 15 |}]
    ∧ ∃ (r : Response) (e : ZipInfo) (rest : list ZipInfo),
        server log {| req_url := url; req_timeout := 15 |} = Ok r
        ∧ status_code r = 200
        ∧ content r = ZipBytes (e :: rest)
        ∧ read_csv (zip_open (RealGetContents (e :: rest)) (filename e)) TAB
                   (parse_dates_of date) = Ok df.
Proof.
  intros server read_csv date url log log' df.
  rewrite extract_aircraft_data_eq. simpl.
  destruct (server log _) as [r|e] eqn:Hget; [|done].
  case_bool_decide as Hstatus; [|done].
  destruct (content r) as [|[|e rest]] eqn:Hbody; try done.
  intros [= Hread <-]. split; [done|].
  by exists r, e, rest.
Qed.

Lemma X3_frame_only_from_200_witness :
  [{| req_url := "u"; req_timeout := 15 |}]
  = [] ++ [{| req_url := "u"; req_timeout := 15 |}]
  ∧ ∃ (r : Response) (e : ZipInfo) (rest : list ZipInfo),
      Sample.serve (Sample.zip_response
        [Sample.entry "aircraft.tab" Sample.aircraft_tab]) []
        {| req_url := "u"; req_timeout := 15 |} = Ok r
      ∧ status_code r = 200
      ∧ content r = ZipBytes (e :: rest)
      ∧ Sample.read_csv (zip_open (RealGetContents (e :: rest)) (filename e)) TAB
          (parse_dates_of None)
        = Ok {| index := RangeIndex 2;
                frame := [("TC_DATA_SHEET", [Obj "A1"; Obj "B2"]);
                          ("Last_Change_Date",
                           [Obj "2023-01-15"; Obj "2023-02-20"])] |}.
Proof.
  apply (X3_frame_only_from_200_and_first_name
           (Sample.serve (Sample.zip_response
              [Sample.entry "aircraft.tab" Sample.aircraft_tab]))
           Sample.read_csv None "u" []).
  vm_compute. reflexivity.
Defined.

(** ** zipfile: names listed and names found (faa_assets.py 136-138) *)

(** X7: looking an entry up by name either finds an entry of the listing
    that bears this name, and then the name is listed, or raises
    [KeyError], and then the name is not listed. So opening a name taken
    from [namelist()] never raises [KeyError]. *)
Theorem X7_getinfo_finds_exactly_listed_names :
  ∀ (cd : list ZipInfo) (nm : string),
    match getinfo (RealGetContents cd) nm with
    | Ok info =>
        nm ∈ namelist (RealGetContents cd) ∧ filename info = nm
        ∧ info ∈ filelist (RealGetContents cd)
    | Raise e => e = KeyError ∧ nm ∉ namelist (RealGetContents cd)
    end.
Proof.
  intros cd nm. unfold getinfo.
  rewrite NameToInfo_RealGetContents, namelist_RealGetContents,
    filelist_RealGetContents.
  destruct (last (filter _ cd)) as [info|] eqn:Hlast.
  - apply last_Some in Hlast as [l' Hl'].
    assert (info ∈ filter (λ x, filename x = nm) cd) as Hin.
    { rewrite Hl'. apply elem_of_app. right. by apply list_elem_of_singleton. }
    apply list_elem_of_filter in Hin as [Hname Hin].
    split; [|done]. rewrite <- Hname. by apply list_elem_of_fmap_2.
  - split; [done|]. intros Hin.
    apply list_elem_of_fmap in Hin as (x & Hx & Hin).
    apply last_None in Hlast.
    assert (x ∈ filter (λ x, filename x = nm) cd) as Hf
      by (by apply list_elem_of_filter).
    rewrite Hlast in Hf. by apply not_elem_of_nil in Hf.
Qed.

(** ** The unit [_asset] (faa_assets.py 155-166) *)

Lemma _asset_eq server read_csv to_markdown (d : Descriptor) log :
  _asset server read_csv to_markdown d log
  = match extract_aircraft_data server read_csv (date d) (url d) log with
    | (Ok df, log') =>
        (Ok {| value := df;
               metadata :=
                 <["website" := MetadataValue_md
                     ("This data was obtained from this [website]("
                      +:+ site d +:+ ").")]>
                 (<["preview" := MetadataValue_md (to_markdown (head df) false)]> ∅) |},
         log')
    | (Raise e, log') => (Raise e, log')
    end.
Proof.
  unfold _asset, mbind, IO_bind, io_bind.
  by destruct (extract_aircraft_data _ _ _ _ _) as [[df|e] log'].
Qed.

Lemma _asset_log server read_csv to_markdown (d : Descriptor) log :
  (_asset server read_csv to_markdown d log).2
  = log ++ [{| req_url := url d; req_timeout := 15 |}].
Proof.
  rewrite _asset_eq.
  pose proof (extract_aircraft_data_log server read_csv (date d) (url d) log) as Hlog.
  by destruct (extract_aircraft_data _ _ _ _ _) as [[df|e] log'].
Qed.

(** X4: running the unit of a descriptor sends exactly one GET, to the
    descriptor's [url] with the 15 second timeout, whether the unit
    publishes or fails, and whatever the server and the reader do. *)
Theorem X4_unit_sends_one_request :
  ∀ (server : Server) read_csv to_markdown (d : Descriptor)
    (log : list Request),
    (compute_fn (build_asset server read_csv to_markdown d) log).2
    = log ++ [{| req_url := url d; req_timeout := 15 |}].
Proof. intros. simpl. apply _asset_log. Qed.

(** X5: when the fetch-and-parse of a descriptor raises, its unit raises
    the same exception and returns no output: no metadata, no preview, is
    built for a failed download. *)
Theorem X5_unit_fails_with_its_download :
  ∀ (server : Server) read_csv to_markdown (d : Descriptor)
    (log log' : list Request) (e : Exception),
    extract_aircraft_data server read_csv (date d) (url d) log = (Raise e, log') →
    compute_fn (build_asset server read_csv to_markdown d) log = (Raise e, log').
Proof.
  intros server read_csv to_markdown d log log' e Hextract.
  simpl. by rewrite _asset_eq, Hextract.
Qed.

Lemma X5_unit_fails_witness :
  compute_fn
    (build_asset (Sample.serve (Ok {| status_code := 503; content := NotAZip |}))
       Sample.read_csv Sample.to_markdown
       {| group := "reference"; name := "state"; url := "u";
          date := Some "LCHG_DATE"; site := "s" |}) []
  = (Raise UnboundLocalError, [{| req_url := "u"; req_timeout := 15 |}]).
Proof.
  apply (X5_unit_fails_with_its_download
           (Sample.serve (Ok {| status_code := 503; content := NotAZip |}))
           Sample.read_csv Sample.to_markdown
           {| group := "reference"; name := "state"; url := "u";
              date := Some "LCHG_DATE"; site := "s" |} []).
  vm_compute. reflexivity.
Defined.

(** X6: running the units of any list of descriptors one after the other,
    each on the log the previous one left, failed or not, extends the log
    by one GET per descriptor, in order, to that descriptor's [url]: a unit
    contacts no other address and none twice. *)
Theorem X6_units_in_sequence_send_one_request_each :
  ∀ (server : Server) read_csv to_markdown (ds : list Descriptor)
    (log : list Request),
    foldl (λ lg a, (compute_fn a lg).2) log
          (build_asset server read_csv to_markdown <$> ds)
    = log ++ ((λ d, {| req_url := url d; req_timeout := 15 |}) <$> ds).
Proof.
  intros server read_csv to_markdown ds.
  induction ds as [|d ds IH]; intros log; simpl.
  - by rewrite app_nil_r.
  - rewrite _asset_log, IH. by rewrite <- app_assoc.
Qed.

(** X13: every unit of the definitions names an I/O manager key that the
    definitions bind to a resource. *)
Theorem X13_io_manager_key_is_bound :
  ∀ (server : Server) read_csv to_markdown (i : nat) (a : AssetsDefinition),
    assets (defs server read_csv to_markdown) !! i = Some a →
    is_Some (resources (defs server read_csv to_markdown) !! io_manager_key a).
Proof.
  intros server read_csv to_markdown i a. simpl. unfold faa_assets.
  rewrite list_lookup_fmap.
  destruct (data_sets !! i) as [d|]; simpl; [|done].
  intros [= <-]. simpl. by rewrite lookup_singleton_eq.
Qed.

Lemma X13_io_manager_key_witness :
  is_Some
    (resources (defs (Sample.serve (Sample.zip_response []))
                  Sample.read_csv Sample.to_markdown)
     !! "faa_io_manager").
Proof.
  apply (X13_io_manager_key_is_bound
           (Sample.serve (Sample.zip_response []))
           Sample.read_csv Sample.to_markdown 3
           (build_asset (Sample.serve (Sample.zip_response []))
              Sample.read_csv Sample.to_markdown
              {| group := "aircraft"; name := "engine";
                 url := "https://av-info.faa.gov/data/ACREF/tab/engine.zip";
                 date := Some "Last_Change_Date";
                 site := "https://av-info.faa.gov/dd_sublevel.asp?Folder=\ACREF" |})).
  reflexivity.
Defined.

(** ** The preview frame [df.head()] (faa_assets.py 164) *)

(** X11: the preview frame never has more than five rows nor more than
    five values in a column, and taking the head again changes nothing. *)
Theorem X11_head_is_capped_and_idempotent :
  ∀ df : DataFrame,
    head (head df) = head df
    ∧ (n_rows (head df) ≤ 5)%nat
    ∧ ∀ c vs, column (head df) c = Some vs → (length vs ≤ 5)%nat.
Proof.
  intros df. split; [|split].
  - unfold head. cbn [index frame]. f_equal.
    + destruct (index df) as [stop|arrays]; unfold index_take.
      * f_equal. lia.
      * f_equal. rewrite <- list_fmap_compose.
        apply list_fmap_ext. intros i a _. simpl. by rewrite take_take.
    + rewrite <- list_fmap_compose.
      apply list_fmap_ext. intros i [nm vs] _. simpl.
      unfold prod_map. simpl. by rewrite take_take.
  - rewrite head_n_rows. lia.
  - unfold column, head. simpl.
    induction (frame df) as [|[nm vs'] fr IH]; simpl; [done|].
    intros c vs. case_decide; [|by apply IH].
    intros [= <-]. rewrite length_take. lia.
Qed.

(** ** The call with the pandas reader: shape of the frame, unreadable and
       empty files (faa_assets.py 134-142) *)

Lemma dedup_step_length st i :
  length (pd.dedup_step st i).1 = length st.1.
Proof.
  destruct st as [this_header counts]. unfold pd.dedup_step.
  destruct (this_header !! i) as [col|]; [|done].
  destruct (pd.dedup_while _ _ _ _ _ _) as [[col' cur_count] counts'].
  simpl. by rewrite length_insert.
Qed.

Lemma dedup_fold_length l st :
  length (foldl pd.dedup_step st l).1 = length st.1.
Proof.
  revert st. induction l as [|i l IH]; intros st; simpl; [done|].
  by rewrite IH, dedup_step_length.
Qed.

(** Renaming keeps one name per header field. *)
Lemma get_header_length (fields : list string) :
  length (pd.get_header fields) = length fields.
Proof.
  unfold pd.get_header. rewrite dedup_fold_length. simpl.
  by rewrite length_imap.
Qed.

Lemma read_csv_Ok_shape tokenize infer_dtype to_datetime data delimiter
    parse_dates header rows df :
  tokenize delimiter data = Ok (header :: rows) →
  pd.read_csv tokenize infer_dtype to_datetime (Ok data) delimiter parse_dates
  = Ok df →
  columns df = pd.get_header header
  ∧ (Forall (λ row, length row ≤ length header)%nat rows →
     index df = RangeIndex (length rows)).
Proof.
  intros Htok. unfold pd.read_csv. simpl. rewrite Htok. simpl.
  destruct (negb _); [done|].
  destruct (existsb _ rows); [done|].
  intros [= <-]. split.
  - apply (columns_imap
             (λ k nm, if bool_decide (nm ∈ default [] parse_dates)
                      then pd.date_converter to_datetime
                             (pd.raw_column rows
                                (pd.table_width header rows - length header + k))
                      else infer_dtype
                             (pd.raw_column rows
                                (pd.table_width header rows - length header + k)))).
  - intros Hrows. simpl. rewrite table_width_no_long_record by done.
    rewrite bool_decide_eq_true_2; [done|lia].
Qed.

(** X10: with the pandas reader, an entry in which the tokenizer finds no
    record at all (an empty file, or blank lines only) makes the call raise
    [EmptyDataError], with or without a date column. *)
Theorem X10_empty_file_raises_EmptyDataError :
  ∀ (server : Server) tokenize infer_dtype to_datetime
    (date : option string) (url : string) (log : list Request)
    (r : Response) (e : ZipInfo) (rest : list ZipInfo) (data : string),
    server log {| req_url := url; req_timeout := 15 |} = Ok r →
    status_code r = 200 →
    content r = ZipBytes (e :: rest) →
    filename e ∉ filename <$> rest →
    file_data e = Ok data →
    tokenize TAB data = Ok [] →
    extract_aircraft_data server
      (pd.read_csv tokenize infer_dtype to_datetime) date url log
    = (Raise EmptyDataError, log ++ [{| req_url := url; req_timeout := 15 |}]).
Proof.
  intros server tokenize infer_dtype to_datetime date url log r e rest data
         Hget Hstatus Hbody Hfresh Hdata Htok.
  rewrite extract_aircraft_data_eq. simpl. rewrite Hget, Hbody.
  rewrite bool_decide_eq_true_2 by done.
  rewrite zip_open_first_not_repeated, Hdata by done.
  unfold pd.read_csv. simpl. by rewrite Htok.
Qed.

Lemma X10_empty_file_witness :
  extract_aircraft_data
    (Sample.serve (Sample.zip_response [Sample.entry "aircraft.tab" ""]))
    Sample.read_csv (Some "Last_Change_Date") "u" []
  = (Raise EmptyDataError, [{| req_url := "u"; req_timeout := 15 |}]).
Proof.
  apply (X10_empty_file_raises_EmptyDataError
           (Sample.serve (Sample.zip_response [Sample.entry "aircraft.tab" ""]))
           Sample.tokenize Sample.infer_dtype Sample.to_datetime
           (Some "Last_Change_Date") "u" []
           {| status_code := 200;
              content := ZipBytes [Sample.entry "aircraft.tab" ""] |}
           (Sample.entry "aircraft.tab" "") [] "").
  - reflexivity.
  - reflexivity.
  - reflexivity.
  - apply (bool_decide_unpack _). vm_compute. reflexivity.
  - reflexivity.
  - reflexivity.
Defined.

(** X9: with the pandas reader, whenever the call returns a frame for an
    archive of one entry, the frame has exactly one column per field of the
    file's header record, repeated and empty names included, with or
    without a date column. *)
Theorem X9_one_column_per_header_field :
  ∀ (server : Server) tokenize infer_dtype to_datetime
    (date : option string) (url : string) (log log' : list Request)
    (r : Response) (nm data : string) (header : list string)
    (rows : list (list string)) (df : DataFrame),
    server log {| req_url := url; req_timeout := 15 |} = Ok r →
    content r = ZipBytes [{| filename := nm; file_data := Ok data |}] →
    tokenize TAB data = Ok (header :: rows) →
    extract_aircraft_data server
      (pd.read_csv tokenize infer_dtype to_datetime) date url log
    = (Ok df, log') →
    length (columns df) = length header.
Proof.
  intros server tokenize infer_dtype to_datetime date url log log' r nm data
         header rows df Hget Hbody Htok.
  rewrite extract_aircraft_data_eq. simpl. rewrite Hget, Hbody.
  case_bool_decide; [|done].
  rewrite zip_open_first_not_repeated by (simpl; apply not_elem_of_nil).
  simpl. intros [= Hread _].
  destruct (read_csv_Ok_shape _ _ _ _ _ _ _ _ _ Htok Hread) as [-> _].
  apply get_header_length.
Qed.

Lemma X9_one_column_per_header_field_witness :
  length (columns {| index := RangeIndex 1;
                     frame := [("MODEL", [Obj "PA-28"]);
                               ("MODEL.1", [Obj "C172"])] |})
  = length ["MODEL"; "MODEL"].
Proof.
  apply (X9_one_column_per_header_field
           (Sample.serve (Sample.zip_response
              [Sample.entry "aircraft.tab"
                 (Sample.lines [Sample.tab ["MODEL"; "MODEL"];
                                Sample.tab ["PA-28"; "C172"]])]))
           Sample.tokenize Sample.infer_dtype Sample.to_datetime
           None "u" [] [{| req_url := "u"; req_timeout := 15 |}]
           {| status_code := 200;
              content := ZipBytes
                [Sample.entry "aircraft.tab"
                   (Sample.lines [Sample.tab ["MODEL"; "MODEL"];
                                  Sample.tab ["PA-28"; "C172"]])] |}
           "aircraft.tab"
           (Sample.lines [Sample.tab ["MODEL"; "MODEL"];
                          Sample.tab ["PA-28"; "C172"]])
           ["MODEL"; "MODEL"] [["PA-28"; "C172"]]).
  - reflexivity.
  - reflexivity.
  - vm_compute. reflexivity.
  - vm_compute. reflexivity.
Defined.

(** X12: with the pandas reader, whenever the call returns a frame for an
    archive of one entry none of whose data records has more fields than
    the header, the frame has exactly one row per data record, with or
    without a date column: no record is dropped, whatever its values. *)
Theorem X12_one_row_per_data_record :
  ∀ (server : Server) tokenize infer_dtype to_datetime
    (date : option string) (url : string) (log log' : list Request)
    (r : Response) (nm data : string) (header : list string)
    (rows : list (list string)) (df : DataFrame),
    server log {| req_url := url; req_timeout := 15 |} = Ok r →
    content r = ZipBytes [{| filename := nm; file_data := Ok data |}] →
    tokenize TAB data = Ok (header :: rows) →
    Forall (λ row, length row ≤ length header)%nat rows →
    extract_aircraft_data server
      (pd.read_csv tokenize infer_dtype to_datetime) date url log
    = (Ok df, log') →
    n_rows df = length rows.
Proof.
  intros server tokenize infer_dtype to_datetime date url log log' r nm data
         header rows df Hget Hbody Htok Hrows.
  rewrite extract_aircraft_data_eq. simpl. rewrite Hget, Hbody.
  case_bool_decide; [|done].
  rewrite zip_open_first_not_repeated by (simpl; apply not_elem_of_nil).
  simpl. intros [= Hread _].
  destruct (read_csv_Ok_shape _ _ _ _ _ _ _ _ _ Htok Hread) as [_ Hindex].
  unfold n_rows. by rewrite Hindex.
Qed.

Lemma X12_one_row_per_data_record_witness :
  n_rows {| index := RangeIndex 2;
            frame := [("TC_DATA_SHEET", [Obj "A1"; Obj "B2"]);
                      ("Last_Change_Date",
                       [Obj "2023-01-15"; Obj "not a date"])] |}
  = length [["A1"; "2023-01-15"]; ["B2"; "not a date"]].
Proof.
  apply (X12_one_row_per_data_record
           (Sample.serve (Sample.zip_response
              [Sample.entry "aircraft.tab"
                 (Sample.lines [Sample.tab ["TC_DATA_SHEET"; "Last_Change_Date"];
                                Sample.tab ["A1"; "2023-01-15"];
                                Sample.tab ["B2"; "not a date"]])]))
           Sample.tokenize Sample.infer_dtype Sample.to_datetime
           (Some "Last_Change_Date") "u" []
           [{| req_url := "u"; req_timeout := 15 |}]
           {| status_code := 200;
              content := ZipBytes
                [Sample.entry "aircraft.tab"
                   (Sample.lines [Sample.tab ["TC_DATA_SHEET"; "Last_Change_Date"];
                                  Sample.tab ["A1"; "2023-01-15"];
                                  Sample.tab ["B2"; "not a date"]])] |}
           "aircraft.tab"
           (Sample.lines [Sample.tab ["TC_DATA_SHEET"; "Last_Change_Date"];
                          Sample.tab ["A1"; "2023-01-15"];
                          Sample.tab ["B2"; "not a date"]])
           ["TC_DATA_SHEET"; "Last_Change_Date"]
           [["A1"; "2023-01-15"]; ["B2"; "not a date"]]).
  - reflexivity.
  - reflexivity.
  - vm_compute. reflexivity.
  - repeat constructor.
  - vm_compute. reflexivity.
Defined.
